(** * update_types.py: copying the "types" field of a JSON document to a file

    The script reads a JSON document from a fixed path, takes the value
    stored under the key "types" and writes it to a second fixed path.  The
    whole body runs inside one [try] block whose only handler is
    [except Exception].

    The embedding follows the script statement by statement in a small
    state-and-exception monad.  The state is the part of the machine the
    script can observe or change: the file system (text contents per path),
    the command line and environment of the process, the standard output,
    and a log of the operations performed.  Files are modelled at the level
    of Python's text layer: a file holds the text that [f.read()] returns
    and that [f.write(s)] stores; byte encoding and newline translation
    belong to the I/O layer underneath and are not modelled.  What lies
    outside the script is a parameter: the JSON decoder of the standard
    library and the faults the operating system may raise. *)

From Stdlib Require Import Ascii.
From Stdlib Require Import Sorted.
From stdpp Require Import gmap strings list fin_maps pretty.

Local Open Scope string_scope.

(** ** Python values produced by the JSON decoder *)

(** [json.load] yields [None], booleans, integers, floats, strings, lists
    and dictionaries with string keys.  A float is kept as its literal. *)
#[warnings="-register-all"]
Inductive pyval : Type :=
| PyNone
| PyBool (b : bool)
| PyInt (z : Z)
| PyFloat (literal : string)
| PyStr (s : string)
| PyList (items : list pyval)
| PyDict (entries : gmap string pyval).

(** [type(v).__name__] *)
Definition type_name (v : pyval) : string :=
  match v with
  | PyNone => "NoneType"
  | PyBool _ => "bool"
  | PyInt _ => "int"
  | PyFloat _ => "float"
  | PyStr _ => "str"
  | PyList _ => "list"
  | PyDict _ => "dict"
  end.

(** ** Exceptions *)

(** The part of Python's exception hierarchy that the script can meet,
    together with [KeyboardInterrupt], which is not an [Exception]. *)
Inductive exn_class : Set :=
| BaseException
| Exception
| KeyboardInterrupt
| OSError
| FileNotFoundError
| PermissionError
| UnsupportedOperation
| ValueError
| UnicodeError
| UnicodeDecodeError
| UnicodeEncodeError
| JSONDecodeError
| LookupError
| KeyError
| TypeError
| RuntimeError
| RecursionError.

#[global] Instance exn_class_eq_dec : EqDecision exn_class.
Proof. solve_decision. Defined.

(** The direct base class ([io.UnsupportedOperation] also derives from
    [ValueError]; either base leads to [Exception]). *)
Definition base_class (c : exn_class) : option exn_class :=
  match c with
  | BaseException => None
  | Exception => Some BaseException
  | KeyboardInterrupt => Some BaseException
  | OSError => Some Exception
  | FileNotFoundError => Some OSError
  | PermissionError => Some OSError
  | UnsupportedOperation => Some OSError
  | ValueError => Some Exception
  | UnicodeError => Some ValueError
  | UnicodeDecodeError => Some UnicodeError
  | UnicodeEncodeError => Some UnicodeError
  | JSONDecodeError => Some ValueError
  | LookupError => Some Exception
  | KeyError => Some LookupError
  | TypeError => Some Exception
  | RuntimeError => Some Exception
  | RecursionError => Some RuntimeError
  end.

Fixpoint issubclass_upto (depth : nat) (c d : exn_class) : bool :=
  if decide (c = d) then true
  else match depth, base_class c with
       | S depth', Some b => issubclass_upto depth' b d
       | _, _ => false
       end.

(** The hierarchy above is five classes deep. *)
Definition issubclass (c d : exn_class) : bool := issubclass_upto 5 c d.

(** An exception instance: its class and the text [str(e)]. *)
Record exn : Type := Exn { exn_cls : exn_class; exn_str : string }.

(** ** The world outside the script *)

Inductive mode : Set := ModeR | ModeW.

#[global] Instance mode_eq_dec : EqDecision mode.
Proof. solve_decision. Defined.

(** An error reported by a system call. *)
Record os_error : Type := OsError { errno : Z; strerror : string }.

(** CPython picks the subclass of [OSError] from [errno]. *)
Definition os_error_class (e : os_error) : exn_class :=
  if decide (errno e = 2%Z) then FileNotFoundError
  else if decide (errno e = 1%Z) then PermissionError
  else if decide (errno e = 13%Z) then PermissionError
  else OSError.

(** [repr] of a string without quotes, backslashes or control characters,
    which is what the two paths and the key of this script are. *)
Definition repr_plain (s : string) : string := "'" +:+ s +:+ "'".

(** [str] of an [OSError], with or without a file name. *)
Definition os_error_str (e : os_error) (filename : option string) : string :=
  "[Errno " +:+ pretty (errno e) +:+ "] " +:+ strerror e +:+
  match filename with
  | Some p => ": " +:+ repr_plain p
  | None => ""
  end.

Definition exn_of_os_error (e : os_error) (filename : option string) : exn :=
  Exn (os_error_class e) (os_error_str e filename).

(** Faults while reading from an open text file. *)
Inductive read_error : Type :=
| ReadOSError (e : os_error)
| ReadDecodeError (msg : string).

Definition exn_of_read_error (r : read_error) : exn :=
  match r with
  | ReadOSError e => exn_of_os_error e None
  | ReadDecodeError msg => Exn UnicodeDecodeError msg
  end.

(** Faults while writing text to an open file. *)
Inductive write_error : Type :=
| WriteOSError (e : os_error)
| WriteEncodeError (msg : string).

Definition exn_of_write_error (r : write_error) : exn :=
  match r with
  | WriteOSError e => exn_of_os_error e None
  | WriteEncodeError msg => Exn UnicodeEncodeError msg
  end.

(** What the operating system decides during one run: whether opening a
    path in a mode fails, whether reading it fails, and whether writing a
    text fails, in which case the given number of leading characters has
    reached the file. *)
Record os_outcomes : Type := OsOutcomes {
  open_fault : string -> mode -> option os_error;
  read_fault : string -> option read_error;
  write_fault : string -> string -> option (write_error * nat)
}.

(** Failures of [json.loads]. *)
Inductive json_error : Type :=
| JSONDecodeErr (msg : string)
| RecursionErr (msg : string).

Definition exn_of_json_error (j : json_error) : exn :=
  match j with
  | JSONDecodeErr msg => Exn JSONDecodeError msg
  | RecursionErr msg => Exn RecursionError msg
  end.

(** ** Machine state *)

Inductive event : Type :=
| EvOpen (path : string) (m : mode) (ok : bool)
| EvRead (path : string) (ok : bool)
| EvLoads (ok : bool)
| EvGetItem (key : string) (ok : bool)
| EvWrite (path : string) (ok : bool)
| EvClose (path : string) (m : mode)
| EvPrint (line : string).

Record world : Type := World {
  w_fs : gmap string string;
  w_argv : list string;
  w_environ : gmap string string;
  w_stdout : list string;
  w_log : list event
}.

Definition set_fs (fs : gmap string string) (w : world) : world :=
  World fs (w_argv w) (w_environ w) (w_stdout w) (w_log w).

Definition add_stdout (line : string) (w : world) : world :=
  World (w_fs w) (w_argv w) (w_environ w) (w_stdout w ++ [line]) (w_log w).

Definition add_log (ev : event) (w : world) : world :=
  World (w_fs w) (w_argv w) (w_environ w) (w_stdout w) (w_log w ++ [ev]).

Definition add_logs (evs : list event) (w : world) : world :=
  World (w_fs w) (w_argv w) (w_environ w) (w_stdout w) (w_log w ++ evs).

(** The world after a run that logged [evs], left [fs] as the file system
    and printed [line]. *)
Definition finished (evs : list event) (line : string)
    (fs : gmap string string) (w : world) : world :=
  World fs (w_argv w) (w_environ w) (w_stdout w ++ [line])
    (w_log w ++ evs ++ [EvPrint line]).

(** ** The monad: state threaded through, exceptions as results *)

Inductive result (A : Type) : Type :=
| Ok (a : A)
| Raise (e : exn).

Arguments Ok {A} a.
Arguments Raise {A} e.

Definition M (A : Type) : Type := world -> result A * world.

Definition ret {A : Type} (a : A) : M A := fun w => (Ok a, w).

Definition raise {A : Type} (e : exn) : M A := fun w => (Raise e, w).

Definition bind {A B : Type} (c : M A) (k : A -> M B) : M B :=
  fun w =>
    match c w with
    | (Ok a, w1) => k a w1
    | (Raise e, w1) => (Raise e, w1)
    end.

Notation "x <- c ;; k" := (bind c (fun x => k))
  (at level 100, c at next level, right associativity).
Notation "c ;;; k" := (bind c (fun _ => k))
  (at level 100, right associativity).

Definition emit (ev : event) : M unit := fun w => (Ok tt, add_log ev w).

(** [try: body / except cls as e: handler e] *)
Definition try_except {A : Type} (body : M A) (cls : exn_class)
    (handler : exn -> M A) : M A :=
  fun w =>
    match body w with
    | (Ok a, w1) => (Ok a, w1)
    | (Raise e, w1) =>
        if issubclass (exn_cls e) cls then handler e w1 else (Raise e, w1)
    end.

(** Runs [cleanup] after [c] whether or not [c] raised. *)
Definition finally {A : Type} (c : M A) (cleanup : M unit) : M A :=
  fun w =>
    match c w with
    | (r, w1) =>
        match cleanup w1 with
        | (Ok _, w2) => (r, w2)
        | (Raise e, w2) => (Raise e, w2)
        end
    end.

(** [print(line)] *)
Definition print (line : string) : M unit :=
  fun w => (Ok tt, add_log (EvPrint line) (add_stdout line w)).

(** ** Files *)

Record file_obj : Type := FileObj { fo_path : string; fo_mode : mode }.

(** [data[key]] for a string key: the value found or the exception raised. *)
Definition subscript (data : pyval) (key : string) : exn + pyval :=
  match data with
  | PyDict d =>
      match d !! key with
      | Some v => inr v
      | None => inl (Exn KeyError (repr_plain key))
      end
  | PyList _ =>
      inl (Exn TypeError "list indices must be integers or slices, not str")
  | PyStr _ =>
      inl (Exn TypeError "string indices must be integers, not 'str'")
  | _ =>
      inl (Exn TypeError
             ("'" +:+ type_name data +:+ "' object is not subscriptable"))
  end.

Definition getitem (data : pyval) (key : string) : M pyval :=
  match subscript data key with
  | inr v => emit (EvGetItem key true) ;;; ret v
  | inl e => emit (EvGetItem key false) ;;; raise e
  end.

(** The argument check of [TextIOWrapper.write]: a [str] or a [TypeError]. *)
Definition text_arg (v : pyval) : exn + string :=
  match v with
  | PyStr s => inr s
  | _ =>
      inl (Exn TypeError
             ("write() argument must be str, not " +:+
              match v with PyNone => "None" | _ => type_name v end))
  end.

(** ** Reading the log *)


(** The path an event reads from, if it reads. *)
Definition read_target (ev : event) : option string :=
  match ev with
  | EvOpen p ModeR _ => Some p
  | EvRead p _ => Some p
  | _ => None
  end.

(** The path an event may change, if any. *)
Definition write_target (ev : event) : option string :=
  match ev with
  | EvOpen p ModeW _ => Some p
  | EvWrite p _ => Some p
  | _ => None
  end.





Section Script.

(** [json.loads] of the standard library. *)
Variable json_loads : string -> json_error + pyval.

(** The operating system's decisions for this run. *)
Variable os : os_outcomes.

(** [open(p, m, encoding="utf-8")].  Opening for reading needs an existing
    file; opening for writing creates the file or truncates it. *)
Definition py_open (p : string) (m : mode) : M file_obj :=
  match open_fault os p m with
  | Some e => emit (EvOpen p m false) ;;; raise (exn_of_os_error e (Some p))
  | None =>
      match m with
      | ModeR =>
          fun w =>
            match w_fs w !! p with
            | Some _ => (emit (EvOpen p m true) ;;; ret (FileObj p m)) w
            | None =>
                (emit (EvOpen p m false) ;;;
                 raise (exn_of_os_error (OsError 2%Z "No such file or directory")
                          (Some p))) w
            end
      | ModeW =>
          fun w =>
            (emit (EvOpen p m true) ;;; ret (FileObj p m))
              (set_fs (<[p := ""]> (w_fs w)) w)
      end
  end.

(** [f.close()], as run by the [with] statement on exit. *)
Definition py_close (f : file_obj) : M unit :=
  emit (EvClose (fo_path f) (fo_mode f)).

(** [with open(p, m, encoding="utf-8") as f: body f] *)
Definition with_open {A : Type} (p : string) (m : mode)
    (body : file_obj -> M A) : M A :=
  f <- py_open p m ;;
  finally (body f) (py_close f).

(** [f.read()] *)
Definition f_read (f : file_obj) : M string :=
  match fo_mode f with
  | ModeW =>
      emit (EvRead (fo_path f) false) ;;;
      raise (Exn UnsupportedOperation "not readable")
  | ModeR =>
      match read_fault os (fo_path f) with
      | Some r => emit (EvRead (fo_path f) false) ;;; raise (exn_of_read_error r)
      | None =>
          fun w =>
            (emit (EvRead (fo_path f) true) ;;; ret (w_fs w !!! fo_path f)) w
      end
  end.

(** [f.write(v)]: the argument must be a [str]; the text goes to the end of
    what the file holds. *)
Definition f_write (f : file_obj) (v : pyval) : M unit :=
  match text_arg v with
  | inl e => emit (EvWrite (fo_path f) false) ;;; raise e
  | inr s =>
      match fo_mode f with
      | ModeR =>
          emit (EvWrite (fo_path f) false) ;;;
          raise (Exn UnsupportedOperation "not writable")
      | ModeW =>
          fun w =>
            let p := fo_path f in
            let old := w_fs w !!! p in
            match write_fault os p s with
            | Some (r, n) =>
                (emit (EvWrite p false) ;;; raise (exn_of_write_error r))
                  (set_fs (<[p := old +:+ String.substring 0 n s]> (w_fs w)) w)
            | None =>
                (emit (EvWrite p true) ;;; ret tt)
                  (set_fs (<[p := old +:+ s]> (w_fs w)) w)
            end
      end
  end.

(** [json.load(f)] is [json.loads(f.read())]. *)
Definition json_load (f : file_obj) : M pyval :=
  text <- f_read f ;;
  match json_loads text with
  | inr v => emit (EvLoads true) ;;; ret v
  | inl j => emit (EvLoads false) ;;; raise (exn_of_json_error j)
  end.

(** ** The script *)

Definition input_path : string :=
  "C:/Users/Qbits/.gemini/antigravity/brain/b8aef8e2-6c26-4073-baeb-701e97c1f662/.system_generated/steps/135/output.txt".

Definition output_path : string := "g:/cw/src/integrations/supabase/types.ts".

(** The first [with] block; it binds [types_content]. *)
Definition read_block : M pyval :=
  with_open input_path ModeR (fun f =>
    data <- json_load f ;;
    types_content <- getitem data "types" ;;
    ret types_content).

(** The second [with] block. *)
Definition write_block (types_content : pyval) : M unit :=
  with_open output_path ModeW (fun f => f_write f types_content).

Definition success_line : string :=
  "Successfully wrote types to " +:+ output_path.

(** The statements of the [try] block. *)
Definition try_body : M unit :=
  types_content <- read_block ;;
  write_block types_content ;;;
  print success_line.

(** The handler of [except Exception as e]. *)
Definition error_line (e : exn) : string := "Error: " +:+ exn_str e.

Definition handler (e : exn) : M unit := print (error_line e).

Definition update_types : M unit := try_except try_body Exception handler.

(** ** The two blocks in closed form

    Each [with] block is summarised by a function of the only things it
    depends on; [read_block_outcome] and [write_block_outcome] below prove
    that the blocks compute exactly these. *)

Definition in_opened (ok : bool) : event := EvOpen input_path ModeR ok.
Definition in_closed : event := EvClose input_path ModeR.
Definition out_opened (ok : bool) : event := EvOpen output_path ModeW ok.
Definition out_closed : event := EvClose output_path ModeW.

(** The first block, given what the input path holds: its result and the
    events it logs. *)
Definition read_outcome (held : option string) : result pyval * list event :=
  match open_fault os input_path ModeR with
  | Some e =>
      (Raise (exn_of_os_error e (Some input_path)), [in_opened false])
  | None =>
      match held with
      | None =>
          (Raise (exn_of_os_error (OsError 2%Z "No such file or directory")
                    (Some input_path)),
           [in_opened false])
      | Some text =>
          match read_fault os input_path with
          | Some r =>
              (Raise (exn_of_read_error r),
               [in_opened true; EvRead input_path false; in_closed])
          | None =>
              match json_loads text with
              | inl j =>
                  (Raise (exn_of_json_error j),
                   [in_opened true; EvRead input_path true; EvLoads false;
                    in_closed])
              | inr data =>
                  match subscript data "types" with
                  | inl e =>
                      (Raise e,
                       [in_opened true; EvRead input_path true; EvLoads true;
                        EvGetItem "types" false; in_closed])
                  | inr v =>
                      (Ok v,
                       [in_opened true; EvRead input_path true; EvLoads true;
                        EvGetItem "types" true; in_closed])
                  end
              end
          end
      end
  end.

(** The second block, given the value to write: its result, the events it
    logs, and the new contents of the output path if it was opened. *)
Definition write_outcome (v : pyval)
    : result unit * list event * option string :=
  match open_fault os output_path ModeW with
  | Some e =>
      (Raise (exn_of_os_error e (Some output_path)), [out_opened false], None)
  | None =>
      match text_arg v with
      | inl e =>
          (Raise e,
           [out_opened true; EvWrite output_path false; out_closed],
           Some "")
      | inr s =>
          match write_fault os output_path s with
          | Some (r, n) =>
              (Raise (exn_of_write_error r),
               [out_opened true; EvWrite output_path false; out_closed],
               Some (String.substring 0 n s))
          | None =>
              (Ok tt,
               [out_opened true; EvWrite output_path true; out_closed],
               Some s)
          end
      end
  end.

(** The file system after storing new contents, if any, at the output path. *)
Definition store_output (new : option string) (fs : gmap string string)
    : gmap string string :=
  match new with
  | Some text => <[output_path := text]> fs
  | None => fs
  end.

(** One run in closed form, given what the input path holds: the events
    logged before the final [print], the line printed, and the new contents
    of the output path if it was opened. *)
Definition run_outcome (held : option string)
    : list event * string * option string :=
  match read_outcome held with
  | (Raise e, evs) => (evs, error_line e, None)
  | (Ok v, evs) =>
      match write_outcome v with
      | (Raise e, evs', new) => ((evs ++ evs')%list, error_line e, new)
      | (Ok _, evs', new) => ((evs ++ evs')%list, success_line, new)
      end
  end.

(** ** Conditions on a run *)

(** The input path can be opened and read, and holds [text]. *)
Definition input_readable (w : world) (text : string) : Prop :=
  open_fault os input_path ModeR = None /\
  w_fs w !! input_path = Some text /\
  read_fault os input_path = None.

(** The output path can be opened for writing and takes the text [s]. *)
Definition output_writable (s : string) : Prop :=
  open_fault os output_path ModeW = None /\
  write_fault os output_path s = None.

(** The input document decodes to an object whose key "types" holds [v]. *)
Definition types_field (text : string) (v : pyval) : Prop :=
  exists d : gmap string pyval,
    json_loads text = inr (PyDict d) /\ d !! "types" = Some v.

(** The failures that happen before the output path is opened. *)
Inductive early_failure (w : world) : Prop :=
| InputNotOpened (e : os_error) :
    open_fault os input_path ModeR = Some e -> early_failure w
| InputMissing :
    open_fault os input_path ModeR = None ->
    w_fs w !! input_path = None -> early_failure w
| InputNotRead (text : string) (r : read_error) :
    open_fault os input_path ModeR = None ->
    w_fs w !! input_path = Some text ->
    read_fault os input_path = Some r -> early_failure w
| InputNotJson (text : string) (j : json_error) :
    input_readable w text ->
    json_loads text = inl j -> early_failure w
| KeyAbsent (text : string) (d : gmap string pyval) :
    input_readable w text ->
    json_loads text = inr (PyDict d) ->
    d !! "types" = None -> early_failure w
| NotAnObject (text : string) (data : pyval) :
    input_readable w text ->
    json_loads text = inr data ->
    (forall d : gmap string pyval, data <> PyDict d) -> early_failure w.


End Script.

(** The script started in a given world. *)
Definition run (json_loads : string -> json_error + pyval) (os : os_outcomes)
    (w : world) : result unit * world :=
  update_types json_loads os w.

(** ** A small JSON decoder

    The theorems below hold for any decoder.  To run the script on concrete
    documents this section supplies one for a subset of JSON: [null],
    [true], [false], integers, strings with the single-character escapes,
    arrays and objects.  As in [json.loads], the last of two equal keys of
    an object wins.  Anything else is reported as a decoding error, and
    the messages carry no position. *)
Module MiniJson.

Local Open Scope nat_scope.

Definition dquote : ascii := ascii_of_nat 34.
Definition backslash : ascii := ascii_of_nat 92.

Definition is_ws (c : ascii) : bool :=
  let n := nat_of_ascii c in
  (n =? 32) || (n =? 9) || (n =? 10) || (n =? 13).

Fixpoint skip_ws (cs : list ascii) : list ascii :=
  match cs with
  | c :: rest => if is_ws c then skip_ws rest else cs
  | [] => []
  end.

Definition digit_of (c : ascii) : option Z :=
  let n := nat_of_ascii c in
  if (48 <=? n) && (n <=? 57) then Some (Z.of_nat (n - 48)) else None.

(** Digits after the first one, with the value read so far. *)
Fixpoint more_digits (acc : Z) (cs : list ascii) : Z * list ascii :=
  match cs with
  | c :: rest =>
      match digit_of c with
      | Some d => more_digits (10 * acc + d)%Z rest
      | None => (acc, cs)
      end
  | [] => (acc, [])
  end.

(** [0] or a non-zero digit followed by digits. *)
Definition natural (cs : list ascii) : option (Z * list ascii) :=
  match cs with
  | c :: rest =>
      match digit_of c with
      | Some 0%Z => Some (0%Z, rest)
      | Some d => Some (more_digits d rest)
      | None => None
      end
  | [] => None
  end.

Definition unescape (c : ascii) : option ascii :=
  let n := nat_of_ascii c in
  if n =? 34 then Some dquote
  else if n =? 92 then Some backslash
  else if n =? 47 then Some "/"%char
  else if n =? 98 then Some (ascii_of_nat 8)
  else if n =? 102 then Some (ascii_of_nat 12)
  else if n =? 110 then Some (ascii_of_nat 10)
  else if n =? 114 then Some (ascii_of_nat 13)
  else if n =? 116 then Some (ascii_of_nat 9)
  else None.

(** The characters of a string literal after its opening quote. *)
Fixpoint string_body (cs : list ascii) : option (string * list ascii) :=
  match cs with
  | [] => None
  | c :: rest =>
      let n := nat_of_ascii c in
      if n =? 34 then Some (EmptyString, rest)
      else if n =? 92 then
        match rest with
        | e :: rest' =>
            match unescape e, string_body rest' with
            | Some u, Some (s, tl) => Some (String u s, tl)
            | _, _ => None
            end
        | [] => None
        end
      else if n <? 32 then None
      else
        match string_body rest with
        | Some (s, tl) => Some (String c s, tl)
        | None => None
        end
  end.

Fixpoint value (fuel : nat) (cs : list ascii) : option (pyval * list ascii) :=
  match fuel with
  | O => None
  | S fuel' =>
      match skip_ws cs with
      | "n"%char :: "u"%char :: "l"%char :: "l"%char :: rest =>
          Some (PyNone, rest)
      | "t"%char :: "r"%char :: "u"%char :: "e"%char :: rest =>
          Some (PyBool true, rest)
      | "f"%char :: "a"%char :: "l"%char :: "s"%char :: "e"%char :: rest =>
          Some (PyBool false, rest)
      | "["%char :: rest =>
          match skip_ws rest with
          | "]"%char :: rest' => Some (PyList [], rest')
          | _ =>
              match elements fuel' rest with
              | Some (vs, tl) => Some (PyList vs, tl)
              | None => None
              end
          end
      | "{"%char :: rest =>
          match skip_ws rest with
          | "}"%char :: rest' => Some (PyDict ∅, rest')
          | _ =>
              match members fuel' ∅ rest with
              | Some (d, tl) => Some (PyDict d, tl)
              | None => None
              end
          end
      | "-"%char :: rest =>
          match natural rest with
          | Some (z, tl) => Some (PyInt (- z), tl)
          | None => None
          end
      | c :: rest =>
          if nat_of_ascii c =? 34 then
            match string_body rest with
            | Some (s, tl) => Some (PyStr s, tl)
            | None => None
            end
          else
            match natural (c :: rest) with
            | Some (z, tl) => Some (PyInt z, tl)
            | None => None
            end
      | [] => None
      end
  end
with elements (fuel : nat) (cs : list ascii)
    : option (list pyval * list ascii) :=
  match fuel with
  | O => None
  | S fuel' =>
      match value fuel' cs with
      | Some (v, tl) =>
          match skip_ws tl with
          | ","%char :: tl' =>
              match elements fuel' tl' with
              | Some (vs, tl'') => Some (v :: vs, tl'')
              | None => None
              end
          | "]"%char :: tl' => Some ([v], tl')
          | _ => None
          end
      | None => None
      end
  end
with members (fuel : nat) (acc : gmap string pyval) (cs : list ascii)
    : option (gmap string pyval * list ascii) :=
  match fuel with
  | O => None
  | S fuel' =>
      match skip_ws cs with
      | q :: rest =>
          if nat_of_ascii q =? 34 then
            match string_body rest with
            | Some (k, tl) =>
                match skip_ws tl with
                | ":"%char :: tl' =>
                    match value fuel' tl' with
                    | Some (v, tl'') =>
                        match skip_ws tl'' with
                        | ","%char :: tl3 => members fuel' (<[k := v]> acc) tl3
                        | "}"%char :: tl3 => Some (<[k := v]> acc, tl3)
                        | _ => None
                        end
                    | None => None
                    end
                | _ => None
                end
            | None => None
            end
          else None
      | [] => None
      end
  end.

Definition loads (s : string) : json_error + pyval :=
  let cs := String.list_ascii_of_string s in
  match value (S (length cs)) cs with
  | Some (v, tl) =>
      match skip_ws tl with
      | [] => inr v
      | _ :: _ => inl (JSONDecodeErr "Extra data")
      end
  | None => inl (JSONDecodeErr "Expecting value")
  end.

(** A string literal: the text between double quotes. *)
Definition quoted (s : string) : string :=
  String dquote (s +:+ String dquote EmptyString).

End MiniJson.

(** ** Sample worlds *)

(** An operating system that raises nothing. *)
Definition quiet_os : os_outcomes :=
  OsOutcomes (fun _ _ => None) (fun _ => None) (fun _ _ => None).

(** A disk that fills up after six characters of any write. *)
Definition full_disk : os_outcomes :=
  OsOutcomes (fun _ _ => None) (fun _ => None)
    (fun _ _ => Some (WriteOSError (OsError 28%Z "No space left on device"), 6)).

(** An operating system that refuses to open any file for writing. *)
Definition read_only_os : os_outcomes :=
  OsOutcomes
    (fun _ m =>
       match m with
       | ModeW => Some (OsError 13%Z "Permission denied")
       | ModeR => None
       end)
    (fun _ => None) (fun _ _ => None).

(** A world whose only file is the input document. *)
Definition world_with_input (text : string) : world :=
  World {[ input_path := text ]} [] ∅ [] [].

(** A world holding the input document and an earlier output file. *)
Definition world_with_both (text old : string) : world :=
  World (<[ output_path := old ]> {[ input_path := text ]}) [] ∅ [] [].

(** The document [{"types": "export type Json = string"}]. *)
Definition good_document : string :=
  "{" +:+ MiniJson.quoted "types" +:+ ": " +:+
  MiniJson.quoted "export type Json = string" +:+ "}".

(** The document [{"types": 42}]. *)
Definition number_document : string :=
  "{" +:+ MiniJson.quoted "types" +:+ ": 42}".

(** The document [{"other": "x"}]. *)
Definition keyless_document : string :=
  "{" +:+ MiniJson.quoted "other" +:+ ": " +:+ MiniJson.quoted "x" +:+ "}".

(** * Properties *)

Lemma paths_distinct : input_path <> output_path.
Proof. discriminate. Qed.

(** Closes a goal that equates two results whose worlds differ only in how
    the same log is bracketed. *)
Ltac step_world :=
  cbn [emit ret raise fst snd];
  unfold add_logs, add_log, add_stdout, set_fs;
  cbn [w_fs w_argv w_environ w_stdout w_log];
  rewrite <- ?app_assoc; reflexivity.

Section Properties.

Variable json_loads : string -> json_error + pyval.
Variable os : os_outcomes.

Lemma read_block_outcome (w : world) :
  read_block json_loads os w =
  (fst (read_outcome json_loads os (w_fs w !! input_path)),
   add_logs (snd (read_outcome json_loads os (w_fs w !! input_path))) w).
Proof.
  unfold read_block, read_outcome, with_open, py_open, bind.
  destruct (open_fault os input_path ModeR) as [e|]; [reflexivity|].
  destruct (w_fs w !! input_path) as [text|] eqn:Hheld; [|reflexivity].
  unfold finally, json_load, f_read, bind, py_close, getitem, bind.
  cbn [fo_mode fo_path emit ret raise fst snd add_log w_fs].
  destruct (read_fault os input_path) as [r|]; [step_world|].
  cbn [emit ret raise fst snd add_log w_fs].
  rewrite (lookup_total_correct _ _ _ Hheld).
  destruct (json_loads text) as [j|data]; [step_world|].
  cbn [emit ret raise fst snd add_log w_fs].
  destruct (subscript data "types") as [e|v]; step_world.
Qed.

Lemma write_block_outcome (v : pyval) (w : world) :
  write_block os v w =
  (fst (fst (write_outcome os v)),
   add_logs (snd (fst (write_outcome os v)))
     (set_fs (store_output (snd (write_outcome os v)) (w_fs w)) w)).
Proof.
  unfold write_block, write_outcome, with_open, py_open, bind.
  destruct (open_fault os output_path ModeW) as [e|]; [step_world|].
  unfold finally, f_write, bind, py_close.
  cbn [fo_mode fo_path emit ret raise fst snd add_log set_fs w_fs].
  destruct (text_arg v) as [e|s]; [step_world|].
  cbn [fo_mode fo_path emit ret raise fst snd add_log set_fs w_fs].
  rewrite lookup_total_insert_eq.
  destruct (write_fault os output_path s) as [[r n]|];
    rewrite insert_insert_eq; step_world.
Qed.

(** *** Every exception the body can raise is an [Exception] *)

Lemma os_error_is_exception (e : os_error) (filename : option string) :
  issubclass (exn_cls (exn_of_os_error e filename)) Exception = true.
Proof.
  unfold exn_of_os_error, os_error_class. cbn [exn_cls].
  repeat case_decide; reflexivity.
Qed.

Lemma read_error_is_exception (r : read_error) :
  issubclass (exn_cls (exn_of_read_error r)) Exception = true.
Proof. destruct r; [apply os_error_is_exception | reflexivity]. Qed.

Lemma write_error_is_exception (r : write_error) :
  issubclass (exn_cls (exn_of_write_error r)) Exception = true.
Proof. destruct r; [apply os_error_is_exception | reflexivity]. Qed.

Lemma json_error_is_exception (j : json_error) :
  issubclass (exn_cls (exn_of_json_error j)) Exception = true.
Proof. destruct j; reflexivity. Qed.

Lemma subscript_error_is_exception (data : pyval) (key : string) (e : exn) :
  subscript data key = inl e -> issubclass (exn_cls e) Exception = true.
Proof.
  destruct data; cbn [subscript]; try (intros [= <-]; reflexivity).
  destruct (_ !! key); intros [= <-]; reflexivity.
Qed.

Lemma text_arg_error_is_exception (v : pyval) (e : exn) :
  text_arg v = inl e -> issubclass (exn_cls e) Exception = true.
Proof. destruct v; cbn [text_arg]; intros [= <-]; reflexivity. Qed.

Lemma read_outcome_is_exception (held : option string) (e : exn)
    (evs : list event) :
  read_outcome json_loads os held = (Raise e, evs) ->
  issubclass (exn_cls e) Exception = true.
Proof.
  unfold read_outcome.
  destruct (open_fault os input_path ModeR);
    [intros [= <- _]; apply os_error_is_exception|].
  destruct held as [text|];
    [|intros [= <- _]; apply os_error_is_exception].
  destruct (read_fault os input_path);
    [intros [= <- _]; apply read_error_is_exception|].
  destruct (json_loads text) as [j|data];
    [intros [= <- _]; apply json_error_is_exception|].
  destruct (subscript data "types") eqn:Hsub; intros [= <- _].
  eapply subscript_error_is_exception, Hsub.
Qed.

Lemma write_outcome_is_exception (v : pyval) (e : exn) (evs : list event)
    (new : option string) :
  write_outcome os v = (Raise e, evs, new) ->
  issubclass (exn_cls e) Exception = true.
Proof.
  unfold write_outcome.
  destruct (open_fault os output_path ModeW);
    [intros [= <- _ _]; apply os_error_is_exception|].
  destruct (text_arg v) as [e'|s] eqn:Harg;
    [intros [= <- _ _]; eapply text_arg_error_is_exception, Harg|].
  destruct (write_fault os output_path s) as [[r n]|]; intros [= <- _ _].
  apply write_error_is_exception.
Qed.

(** *** The [try] block and the whole run in closed form *)

Lemma try_body_closed_form (w : world) :
  try_body json_loads os w =
  match read_outcome json_loads os (w_fs w !! input_path) with
  | (Raise e, evs) => (Raise e, add_logs evs w)
  | (Ok v, evs) =>
      match write_outcome os v with
      | (Raise e, evs', new) =>
          (Raise e,
           add_logs (evs ++ evs') (set_fs (store_output new (w_fs w)) w))
      | (Ok _, evs', new) =>
          (Ok tt,
           finished (evs ++ evs') success_line (store_output new (w_fs w)) w)
      end
  end.
Proof.
  unfold try_body, bind.
  rewrite read_block_outcome.
  destruct (read_outcome json_loads os (w_fs w !! input_path))
    as [[v|e] evs]; cbn [fst snd]; [|reflexivity].
  rewrite write_block_outcome.
  destruct (write_outcome os v) as [[[[]|e] evs'] new]; cbn [fst snd].
  - unfold print, finished, add_logs, add_log, add_stdout, set_fs.
    cbn [w_fs w_argv w_environ w_stdout w_log].
    by rewrite <- !app_assoc.
  - unfold add_logs, set_fs.
    cbn [w_fs w_argv w_environ w_stdout w_log].
    by rewrite <- !app_assoc.
Qed.

Lemma run_closed_form (w : world) :
  run json_loads os w =
  (Ok tt,
   finished (fst (fst (run_outcome json_loads os (w_fs w !! input_path))))
     (snd (fst (run_outcome json_loads os (w_fs w !! input_path))))
     (store_output (snd (run_outcome json_loads os (w_fs w !! input_path)))
        (w_fs w))
     w).
Proof.
  unfold run, update_types, try_except, run_outcome.
  rewrite try_body_closed_form.
  destruct (read_outcome json_loads os (w_fs w !! input_path))
    as [[v|e] evs] eqn:Hread; cbn [fst snd].
  - destruct (write_outcome os v) as [[[[]|e] evs'] new] eqn:Hwrite;
      cbn [fst snd]; [reflexivity|].
    rewrite (write_outcome_is_exception _ _ _ _ Hwrite).
    unfold handler, print, finished, add_logs, add_log, add_stdout, set_fs.
    cbn [w_fs w_argv w_environ w_stdout w_log].
    by rewrite <- !app_assoc.
  - rewrite (read_outcome_is_exception _ _ _ Hread).
    unfold handler, print, finished, add_logs, add_log, add_stdout, set_fs.
    cbn [w_fs w_argv w_environ w_stdout w_log store_output].
    by rewrite <- !app_assoc.
Qed.

(** *** The outcomes under the conditions of the claims *)

Lemma read_outcome_value (w : world) (text : string) (v : pyval) :
  input_readable os w text ->
  types_field json_loads text v ->
  read_outcome json_loads os (w_fs w !! input_path) =
  (Ok v,
   [in_opened true; EvRead input_path true; EvLoads true;
    EvGetItem "types" true; in_closed]).
Proof.
  intros (Hopen & Hheld & Hread) (d & Hloads & Hkey).
  unfold read_outcome.
  rewrite Hopen, Hheld, Hread, Hloads. cbn [subscript].
  by rewrite Hkey.
Qed.

Lemma write_outcome_stored (s : string) :
  output_writable os s ->
  write_outcome os (PyStr s) =
  (Ok tt, [out_opened true; EvWrite output_path true; out_closed], Some s).
Proof.
  intros (Hopen & Hwrite). unfold write_outcome.
  rewrite Hopen. cbn [text_arg]. by rewrite Hwrite.
Qed.

Lemma run_outcome_success (w : world) (text s : string) :
  input_readable os w text ->
  types_field json_loads text (PyStr s) ->
  output_writable os s ->
  run_outcome json_loads os (w_fs w !! input_path) =
  ([in_opened true; EvRead input_path true; EvLoads true;
    EvGetItem "types" true; in_closed;
    out_opened true; EvWrite output_path true; out_closed],
   success_line, Some s).
Proof.
  intros Hin Hfield Hout. unfold run_outcome.
  rewrite (read_outcome_value _ _ _ Hin Hfield).
  by rewrite (write_outcome_stored _ Hout).
Qed.

(** C1: when the input file is readable, decodes to an object with a
    string under "types", and the output path can be written, the run ends
    with exactly that string in the output file and has printed the success
    message naming the output path. *)
Theorem success_copies_types_field (w : world) (text s : string) :
  input_readable os w text ->
  types_field json_loads text (PyStr s) ->
  output_writable os s ->
  w_fs (snd (run json_loads os w)) !! output_path = Some s /\
  w_stdout (snd (run json_loads os w)) =
    (w_stdout w ++ ["Successfully wrote types to " +:+ output_path])%list.
Proof.
  intros Hin Hfield Hout.
  rewrite run_closed_form, (run_outcome_success _ _ _ Hin Hfield Hout).
  cbn [fst snd finished store_output w_fs w_stdout].
  split; [apply lookup_insert_eq | reflexivity].
Qed.

(** C4: on a successful run the output path is overwritten: whatever it
    held before, the file system afterwards is the earlier one with the
    "types" string stored at the output path, so the file holds that string
    and nothing of its previous contents. *)
Theorem success_overwrites_output (w : world) (text s old : string) :
  input_readable os w text ->
  types_field json_loads text (PyStr s) ->
  output_writable os s ->
  w_fs w !! output_path = Some old ->
  w_fs (snd (run json_loads os w)) = <[output_path := s]> (w_fs w) /\
  w_fs (snd (run json_loads os w)) !! output_path = Some s.
Proof.
  intros Hin Hfield Hout _.
  rewrite run_closed_form, (run_outcome_success _ _ _ Hin Hfield Hout).
  cbn [fst snd finished store_output w_fs].
  split; [reflexivity | apply lookup_insert_eq].
Qed.

(** C5: under the same conditions the [try] block ends without raising,
    the handler is not entered, and the only line printed is the success
    message. *)
Theorem success_raises_nothing (w : world) (text s : string) :
  input_readable os w text ->
  types_field json_loads text (PyStr s) ->
  output_writable os s ->
  fst (try_body json_loads os w) = Ok tt /\
  run json_loads os w = try_body json_loads os w /\
  w_stdout (snd (run json_loads os w)) = (w_stdout w ++ [success_line])%list.
Proof.
  intros Hin Hfield Hout.
  unfold run, update_types, try_except.
  rewrite try_body_closed_form.
  rewrite (read_outcome_value _ _ _ Hin Hfield).
  rewrite (write_outcome_stored _ Hout).
  cbn [fst snd finished w_stdout]. done.
Qed.

(** The line a run prints is the success message or an error message. *)
Lemma run_outcome_line (held : option string) :
  snd (fst (run_outcome json_loads os held)) = success_line \/
  exists e : exn, snd (fst (run_outcome json_loads os held)) = error_line e.
Proof.
  unfold run_outcome.
  destruct (read_outcome json_loads os held) as [[v|e] evs];
    [|right; by exists e].
  destruct (write_outcome os v) as [[[[]|e] evs'] new];
    [by left | right; by exists e].
Qed.

(** C10: whatever the input file holds and whatever the two file operations
    do, the run ends normally, no exception leaves the script, and exactly
    one line has been printed: the success message or an error message. *)
Theorem run_ends_normally_with_one_line (w : world) :
  fst (run json_loads os w) = Ok tt /\
  exists line : string,
    w_stdout (snd (run json_loads os w)) = (w_stdout w ++ [line])%list /\
    (line = success_line \/ exists e : exn, line = error_line e).
Proof.
  rewrite run_closed_form. cbn [fst snd finished w_stdout].
  split; [reflexivity|].
  eexists. split; [reflexivity | apply run_outcome_line].
Qed.

(** *** Every run, case by case *)

(** Splits a goal about [run_outcome] into the ways a run can go. *)
Ltac outcome_cases :=
  unfold run_outcome, read_outcome, write_outcome;
  repeat case_match; simplify_eq.


(** *** Failing runs *)

Lemma subscript_not_object (data : pyval) (key : string) :
  (forall d : gmap string pyval, data <> PyDict d) ->
  exists e : exn, subscript data key = inl e.
Proof.
  intros Hnot. destruct data; cbn [subscript]; try (eexists; reflexivity).
  by destruct (Hnot entries).
Qed.

Lemma early_failure_outcome (w : world) :
  early_failure json_loads os w ->
  exists (e : exn) (evs : list event),
    read_outcome json_loads os (w_fs w !! input_path) = (Raise e, evs) /\
    Forall (fun ev => write_target ev = None) evs.
Proof.
  unfold read_outcome.
  intros [e Hopen | Hopen Hheld | text r Hopen Hheld Hread
         | text j (Hopen & Hheld & Hread) Hloads
         | text d (Hopen & Hheld & Hread) Hloads Hkey
         | text data (Hopen & Hheld & Hread) Hloads Hnot].
  - rewrite Hopen. eexists _, _. split; [reflexivity|].
    repeat constructor.
  - rewrite Hopen, Hheld. eexists _, _. split; [reflexivity|].
    repeat constructor.
  - rewrite Hopen, Hheld, Hread. eexists _, _. split; [reflexivity|].
    repeat constructor.
  - rewrite Hopen, Hheld, Hread, Hloads. eexists _, _. split; [reflexivity|].
    repeat constructor.
  - rewrite Hopen, Hheld, Hread, Hloads. cbn [subscript]. rewrite Hkey.
    eexists _, _. split; [reflexivity|]. repeat constructor.
  - rewrite Hopen, Hheld, Hread, Hloads.
    destruct (subscript_not_object data "types" Hnot) as [e ->].
    eexists _, _. split; [reflexivity|]. repeat constructor.
Qed.

Lemma text_arg_not_string (v : pyval) :
  (forall s : string, v <> PyStr s) ->
  exists e : exn,
    text_arg v = inl e /\
    e = Exn TypeError
          ("write() argument must be str, not " +:+
           match v with PyNone => "None" | _ => type_name v end).
Proof.
  intros Hnot. destruct v; cbn [text_arg]; try (eexists; split; reflexivity).
  by destruct (Hnot s).
Qed.



(** C8: when the run fails before the output path is opened (input
    missing or unreadable, not JSON, or without the key "types") the file
    system, and with it the output file, is what it was before the run, and
    no logged operation had the output path as its target. *)
Theorem early_failure_keeps_output (w : world) :
  early_failure json_loads os w ->
  w_fs (snd (run json_loads os w)) !! output_path = w_fs w !! output_path /\
  w_fs (snd (run json_loads os w)) = w_fs w /\
  exists (evs : list event) (e : exn),
    w_log (snd (run json_loads os w)) =
      (w_log w ++ evs ++ [EvPrint (error_line e)])%list /\
    Forall (fun ev => write_target ev = None) evs.
Proof.
  intros Hearly.
  destruct (early_failure_outcome w Hearly) as (e & evs & Hread & Hnone).
  rewrite run_closed_form. unfold run_outcome. rewrite Hread.
  cbn [fst snd finished store_output w_fs w_log].
  repeat split. by exists evs, e.
Qed.

(** C9: when the key "types" holds a value that is not a string and the
    output path can be opened, the output file is first truncated by the
    opening and the write then fails with a [TypeError]; after the error
    line is printed the output file is empty. *)
Theorem non_string_field_empties_output (w : world) (text : string)
    (v : pyval) :
  input_readable os w text ->
  types_field json_loads text v ->
  (forall s : string, v <> PyStr s) ->
  open_fault os output_path ModeW = None ->
  w_fs (snd (run json_loads os w)) !! output_path = Some "" /\
  exists e : exn,
    exn_cls e = TypeError /\
    w_stdout (snd (run json_loads os w)) =
      (w_stdout w ++ [error_line e])%list /\
    w_log (snd (run json_loads os w)) =
      (w_log w ++
       [in_opened true; EvRead input_path true; EvLoads true;
        EvGetItem "types" true; in_closed;
        out_opened true; EvWrite output_path false; out_closed;
        EvPrint (error_line e)])%list.
Proof.
  intros Hin Hfield Hnot Hopen.
  rewrite run_closed_form. unfold run_outcome.
  rewrite (read_outcome_value _ _ _ Hin Hfield). unfold write_outcome.
  rewrite Hopen. destruct (text_arg_not_string v Hnot) as (e & -> & ->).
  cbn [fst snd finished store_output w_fs w_stdout w_log].
  split; [apply lookup_insert_eq|].
  eexists (Exn TypeError _). split; [reflexivity|]. split; reflexivity.
Qed.

(** *** Order of operations, frame and determinism *)


Lemma store_output_other (new : option string) (fs : gmap string string)
    (p : string) :
  p <> output_path -> store_output new fs !! p = fs !! p.
Proof.
  intros Hne. destruct new; cbn [store_output]; [|reflexivity].
  by apply lookup_insert_ne.
Qed.

(** C6: a run reads from no path but the input path and changes no path
    but the output path: every logged operation that reads targets the
    former, every one that writes targets the latter, every other file is
    left as it was, and neither the command line nor the environment
    influences or is changed by the run. *)
Theorem only_the_two_paths_are_touched (w : world) :
  (exists (evs : list event) (line : string),
     w_log (snd (run json_loads os w)) =
       (w_log w ++ evs ++ [EvPrint line])%list /\
     Forall (fun ev =>
               (forall p, read_target ev = Some p -> p = input_path) /\
               (forall p, write_target ev = Some p -> p = output_path)) evs) /\
  (forall p : string,
     p <> output_path ->
     w_fs (snd (run json_loads os w)) !! p = w_fs w !! p) /\
  w_argv (snd (run json_loads os w)) = w_argv w /\
  w_environ (snd (run json_loads os w)) = w_environ w /\
  (forall (argv : list string) (environ : gmap string string),
     let w' := World (w_fs w) argv environ (w_stdout w) (w_log w) in
     fst (run json_loads os w') = fst (run json_loads os w) /\
     w_fs (snd (run json_loads os w')) = w_fs (snd (run json_loads os w)) /\
     w_stdout (snd (run json_loads os w')) =
       w_stdout (snd (run json_loads os w)) /\
     w_log (snd (run json_loads os w')) = w_log (snd (run json_loads os w))).
Proof.
  split; [|split; [|split; [|split]]].
  - rewrite run_closed_form. cbn [snd finished w_log].
    eexists _, _. split; [reflexivity|].
    outcome_cases; cbn [fst snd app];
      unfold in_opened, in_closed, out_opened, out_closed;
      repeat constructor; cbn [read_target write_target]; congruence.
  - intros p Hne. rewrite run_closed_form. cbn [snd finished w_fs].
    by apply store_output_other.
  - by rewrite run_closed_form.
  - by rewrite run_closed_form.
  - intros argv environ w'. by rewrite !run_closed_form.
Qed.

(** In particular the input file itself is left as it was. *)
Lemma run_keeps_input (w : world) :
  w_fs (snd (run json_loads os w)) !! input_path = w_fs w !! input_path.
Proof.
  rewrite run_closed_form. cbn [snd finished w_fs].
  apply store_output_other, paths_distinct.
Qed.


End Properties.

(** * The theorems on sample runs *)

(** Decides a closed condition on a sample run by evaluating it. *)
Ltac evaluated := repeat split; vm_compute; reflexivity.

(** Decides [types_field] on a sample document, given the decoded object. *)
Ltac field_evaluated d := exists d; split; vm_compute; reflexivity.

Lemma success_copies_types_field_witness :
  w_fs (snd (run MiniJson.loads quiet_os (world_with_input good_document)))
    !! output_path = Some "export type Json = string" /\
  w_stdout (snd (run MiniJson.loads quiet_os (world_with_input good_document)))
    = ["Successfully wrote types to g:/cw/src/integrations/supabase/types.ts"].
Proof.
  apply (success_copies_types_field MiniJson.loads quiet_os
           (world_with_input good_document) good_document
           "export type Json = string").
  - evaluated.
  - field_evaluated
      (<["types" := PyStr "export type Json = string"]>
         (∅ : gmap string pyval)).
  - evaluated.
Defined.

Lemma success_overwrites_output_witness :
  w_fs (snd (run MiniJson.loads quiet_os
               (world_with_both good_document "old contents")))
    = <[output_path := "export type Json = string"]>
        (w_fs (world_with_both good_document "old contents")) /\
  w_fs (snd (run MiniJson.loads quiet_os
               (world_with_both good_document "old contents")))
    !! output_path = Some "export type Json = string".
Proof.
  apply (success_overwrites_output MiniJson.loads quiet_os
           (world_with_both good_document "old contents") good_document
           "export type Json = string" "old contents").
  - evaluated.
  - field_evaluated
      (<["types" := PyStr "export type Json = string"]>
         (∅ : gmap string pyval)).
  - evaluated.
  - vm_compute; reflexivity.
Defined.

Lemma success_raises_nothing_witness :
  fst (try_body MiniJson.loads quiet_os (world_with_input good_document))
    = Ok tt /\
  run MiniJson.loads quiet_os (world_with_input good_document)
    = try_body MiniJson.loads quiet_os (world_with_input good_document) /\
  w_stdout (snd (run MiniJson.loads quiet_os (world_with_input good_document)))
    = [success_line].
Proof.
  apply (success_raises_nothing MiniJson.loads quiet_os
           (world_with_input good_document) good_document
           "export type Json = string").
  - evaluated.
  - field_evaluated
      (<["types" := PyStr "export type Json = string"]>
         (∅ : gmap string pyval)).
  - evaluated.
Defined.


Lemma early_failure_keeps_output_witness :
  w_fs (snd (run MiniJson.loads quiet_os
               (world_with_both keyless_document "old contents")))
    !! output_path = Some "old contents".
Proof.
  destruct (early_failure_keeps_output MiniJson.loads quiet_os
              (world_with_both keyless_document "old contents")) as [-> _].
  - apply (KeyAbsent MiniJson.loads quiet_os _ keyless_document
             (<["other" := PyStr "x"]> (∅ : gmap string pyval))).
    + evaluated.
    + vm_compute; reflexivity.
    + vm_compute; reflexivity.
  - vm_compute; reflexivity.
Defined.

Lemma non_string_field_empties_output_witness :
  w_fs (snd (run MiniJson.loads quiet_os
               (world_with_both number_document "old contents")))
    !! output_path = Some "" /\
  exists e : exn,
    exn_cls e = TypeError /\
    w_stdout (snd (run MiniJson.loads quiet_os
                     (world_with_both number_document "old contents")))
      = [error_line e] /\
    w_log (snd (run MiniJson.loads quiet_os
                  (world_with_both number_document "old contents")))
      = [in_opened true; EvRead input_path true; EvLoads true;
         EvGetItem "types" true; in_closed;
         out_opened true; EvWrite output_path false; out_closed;
         EvPrint (error_line e)].
Proof.
  apply (non_string_field_empties_output MiniJson.loads quiet_os
           (world_with_both number_document "old contents") number_document
           (PyInt 42)).
  - evaluated.
  - field_evaluated (<["types" := PyInt 42]> (∅ : gmap string pyval)).
  - discriminate.
  - reflexivity.
Defined.



(** * Further sample runs *)

Example loads_nested :
  MiniJson.loads "[1, -2, [], {}, null, true]" =
  inr (PyList [PyInt 1; PyInt (-2); PyList []; PyDict ∅; PyNone; PyBool true]).
Proof. vm_compute; reflexivity. Qed.

Example loads_trailing_garbage :
  MiniJson.loads "[1] x" = inl (JSONDecodeErr "Extra data").
Proof. vm_compute; reflexivity. Qed.

Example run_without_input :
  w_stdout (snd (run MiniJson.loads quiet_os (World ∅ [] ∅ [] []))) =
  ["Error: [Errno 2] No such file or directory: '" +:+ input_path +:+ "'"].
Proof. vm_compute; reflexivity. Qed.

Example run_on_array :
  run MiniJson.loads quiet_os (world_with_both "[1, 2]" "old contents") =
  (Ok tt,
   finished
     [in_opened true; EvRead input_path true; EvLoads true;
      EvGetItem "types" false; in_closed]
     "Error: list indices must be integers or slices, not str"
     (w_fs (world_with_both "[1, 2]" "old contents"))
     (world_with_both "[1, 2]" "old contents")).
Proof. vm_compute; reflexivity. Qed.

Example run_on_full_disk :
  w_fs (snd (run MiniJson.loads full_disk
               (world_with_both good_document "old contents")))
    !! output_path = Some "export" /\
  w_stdout (snd (run MiniJson.loads full_disk
                   (world_with_both good_document "old contents"))) =
  ["Error: [Errno 28] No space left on device"].
Proof. split; vm_compute; reflexivity. Qed.

(** * Further properties of the script *)

Section Further.

Variable json_loads : string -> json_error + pyval.
Variable os : os_outcomes.

Lemma subscript_found (data : pyval) (key : string) (v : pyval) :
  subscript data key = inr v ->
  exists d : gmap string pyval, data = PyDict d /\ d !! key = Some v.
Proof.
  destruct data; cbn [subscript]; try discriminate.
  destruct (entries !! key) eqn:Hkey; [|discriminate].
  intros [= <-]. by exists entries.
Qed.

Lemma text_arg_accepts (v : pyval) (s : string) :
  text_arg v = inr s -> v = PyStr s.
Proof. destruct v; cbn [text_arg]; try discriminate. by intros [= <-]. Qed.

Lemma error_line_is_not_success (e : exn) : error_line e <> success_line.
Proof. discriminate. Qed.

(** The success message is truthful: if the line a run printed is the
    success message, then the input was read, it decoded to an object with
    a string under "types", the output was written, and the output file
    holds exactly that string. *)
Theorem success_line_is_truthful (w : world) :
  w_stdout (snd (run json_loads os w)) = (w_stdout w ++ [success_line])%list ->
  exists text s : string,
    input_readable os w text /\
    types_field json_loads text (PyStr s) /\
    output_writable os s /\
    w_fs (snd (run json_loads os w)) !! output_path = Some s.
Proof.
  rewrite run_closed_form. cbn [snd finished w_stdout w_fs].
  intros Hline. apply app_inv_head in Hline. injection Hline as Hline.
  revert Hline. unfold run_outcome, read_outcome, write_outcome.
  destruct (open_fault os input_path ModeR) eqn:Hopen;
    [intros H; by destruct (error_line_is_not_success _ H)|].
  destruct (w_fs w !! input_path) as [text|] eqn:Hheld;
    [|intros H; by destruct (error_line_is_not_success _ H)].
  destruct (read_fault os input_path) eqn:Hread;
    [intros H; by destruct (error_line_is_not_success _ H)|].
  destruct (json_loads text) as [j|data] eqn:Hloads;
    [intros H; by destruct (error_line_is_not_success _ H)|].
  destruct (subscript data "types") as [e|v] eqn:Hsub;
    [intros H; by destruct (error_line_is_not_success _ H)|].
  destruct (open_fault os output_path ModeW) eqn:Hopen';
    [intros H; by destruct (error_line_is_not_success _ H)|].
  destruct (text_arg v) as [e|s] eqn:Harg;
    [intros H; by destruct (error_line_is_not_success _ H)|].
  destruct (write_fault os output_path s) as [[r n]|] eqn:Hwrite;
    [intros H; by destruct (error_line_is_not_success _ H)|].
  intros _. cbn [fst snd store_output].
  apply text_arg_accepts in Harg as ->.
  destruct (subscript_found _ _ _ Hsub) as (d & -> & Hkey).
  exists text, s. repeat split; try done.
  - by exists d.
  - apply lookup_insert_eq.
Qed.

(** An object without the key "types" makes the run print the quoted key
    and nothing more: the text of a [KeyError] is the [repr] of the key. *)
Theorem missing_key_prints_quoted_key (w : world) (text : string)
    (d : gmap string pyval) :
  input_readable os w text ->
  json_loads text = inr (PyDict d) ->
  d !! "types" = None ->
  w_stdout (snd (run json_loads os w)) = (w_stdout w ++ ["Error: 'types'"])%list.
Proof.
  intros (Hopen & Hheld & Hread) Hloads Hkey.
  rewrite run_closed_form. unfold run_outcome, read_outcome.
  rewrite Hopen, Hheld, Hread, Hloads. cbn [subscript]. by rewrite Hkey.
Qed.


(** When the output path cannot be opened the run reports that error,
    naming the output path, and leaves every file as it was, whatever the
    value under "types" is: a value that is not a string is not noticed. *)
Theorem unopened_output_keeps_files (w : world) (text : string) (v : pyval)
    (e : os_error) :
  input_readable os w text ->
  types_field json_loads text v ->
  open_fault os output_path ModeW = Some e ->
  w_fs (snd (run json_loads os w)) = w_fs w /\
  w_stdout (snd (run json_loads os w)) =
    (w_stdout w ++ ["Error: " +:+ os_error_str e (Some output_path)])%list.
Proof.
  intros Hin Hfield Hopen.
  rewrite run_closed_form. unfold run_outcome.
  rewrite (read_outcome_value _ _ _ _ _ Hin Hfield). unfold write_outcome.
  by rewrite Hopen.
Qed.

(** Once the output path has been opened its earlier contents are gone,
    whether or not the write succeeds: two runs on the same input document
    end with the same output file, whatever the file held before each. *)
Theorem opened_output_forgets_prior (w1 w2 : world) (text : string)
    (v : pyval) :
  input_readable os w1 text ->
  input_readable os w2 text ->
  types_field json_loads text v ->
  open_fault os output_path ModeW = None ->
  w_fs (snd (run json_loads os w1)) !! output_path =
  w_fs (snd (run json_loads os w2)) !! output_path.
Proof.
  intros Hin1 Hin2 Hfield Hopen.
  rewrite !run_closed_form. unfold run_outcome.
  rewrite (read_outcome_value _ _ _ _ _ Hin1 Hfield).
  rewrite (read_outcome_value _ _ _ _ _ Hin2 Hfield).
  unfold write_outcome. rewrite Hopen.
  destruct (text_arg v) as [e|s];
    [|destruct (write_fault os output_path s) as [[r n]|]];
    cbn [fst snd finished store_output w_fs]; by rewrite !lookup_insert_eq.
Qed.

(** Running the script again, with the operating system behaving as
    before, changes no file further and prints the same line again. *)
Theorem second_run_changes_nothing (w : world) :
  w_fs (snd (run json_loads os (snd (run json_loads os w)))) =
    w_fs (snd (run json_loads os w)) /\
  exists line : string,
    w_stdout (snd (run json_loads os w)) = (w_stdout w ++ [line])%list /\
    w_stdout (snd (run json_loads os (snd (run json_loads os w)))) =
      (w_stdout w ++ [line; line])%list.
Proof.
  rewrite (run_closed_form json_loads os (snd (run json_loads os w))).
  rewrite (run_closed_form json_loads os w).
  cbn [snd finished w_fs w_stdout].
  rewrite (store_output_other _ _ _ paths_distinct).
  split.
  - destruct (snd (run_outcome json_loads os (w_fs w !! input_path)));
      cbn [store_output]; [apply insert_insert_eq | reflexivity].
  - eexists. split; [reflexivity|]. by rewrite <- app_assoc.
Qed.

(** Splits a goal about [run_outcome] into the ways a run can go. *)
Ltac run_cases :=
  unfold run_outcome, read_outcome, write_outcome;
  repeat case_match; simplify_eq.

(** Every file the run has opened is closed again before the final print,
    on the failing paths as on the successful one. *)
Theorem opened_files_are_closed (w : world) :
  exists (evs : list event) (line : string),
    w_log (snd (run json_loads os w)) =
      (w_log w ++ evs ++ [EvPrint line])%list /\
    forall (p : string) (m : mode) (before after : list event),
      evs = (before ++ EvOpen p m true :: after)%list ->
      In (EvClose p m) after.
Proof.
  rewrite run_closed_form. cbn [snd finished w_log].
  exists (fst (fst (run_outcome json_loads os (w_fs w !! input_path)))),
         (snd (fst (run_outcome json_loads os (w_fs w !! input_path)))).
  split; [reflexivity|].
  run_cases; cbn [fst snd app];
    unfold in_opened, in_closed, out_opened, out_closed;
    intros opened_path opened_mode before after Hsplit;
    repeat match goal with
           | H : _ = (?l ++ _ :: _)%list |- _ =>
               destruct l; cbn [app] in H; simplify_eq
           end;
    cbn [In]; tauto.
Qed.

End Further.

(** ** The further properties on sample runs *)

Lemma success_line_is_truthful_witness :
  exists text s : string,
    input_readable quiet_os (world_with_input good_document) text /\
    types_field MiniJson.loads text (PyStr s) /\
    output_writable quiet_os s /\
    w_fs (snd (run MiniJson.loads quiet_os (world_with_input good_document)))
      !! output_path = Some s.
Proof.
  apply (success_line_is_truthful MiniJson.loads quiet_os
           (world_with_input good_document)).
  vm_compute; reflexivity.
Defined.

Lemma missing_key_prints_quoted_key_witness :
  w_stdout (snd (run MiniJson.loads quiet_os
                   (world_with_both keyless_document "old contents")))
  = ["Error: 'types'"].
Proof.
  apply (missing_key_prints_quoted_key MiniJson.loads quiet_os
           (world_with_both keyless_document "old contents") keyless_document
           (<["other" := PyStr "x"]> (∅ : gmap string pyval))).
  - evaluated.
  - vm_compute; reflexivity.
  - vm_compute; reflexivity.
Defined.


Lemma unopened_output_keeps_files_witness :
  w_fs (snd (run MiniJson.loads read_only_os
               (world_with_both number_document "old contents")))
    = w_fs (world_with_both number_document "old contents") /\
  w_stdout (snd (run MiniJson.loads read_only_os
                   (world_with_both number_document "old contents")))
    = ["Error: " +:+
       os_error_str (OsError 13%Z "Permission denied") (Some output_path)].
Proof.
  apply (unopened_output_keeps_files MiniJson.loads read_only_os
           (world_with_both number_document "old contents") number_document
           (PyInt 42) (OsError 13%Z "Permission denied")).
  - evaluated.
  - field_evaluated (<["types" := PyInt 42]> (∅ : gmap string pyval)).
  - reflexivity.
Defined.

Lemma opened_output_forgets_prior_witness :
  w_fs (snd (run MiniJson.loads full_disk
               (world_with_both good_document "first"))) !! output_path =
  w_fs (snd (run MiniJson.loads full_disk
               (world_with_input good_document))) !! output_path.
Proof.
  apply (opened_output_forgets_prior MiniJson.loads full_disk
           (world_with_both good_document "first")
           (world_with_input good_document) good_document
           (PyStr "export type Json = string")).
  - evaluated.
  - evaluated.
  - field_evaluated
      (<["types" := PyStr "export type Json = string"]>
         (∅ : gmap string pyval)).
  - reflexivity.
Defined.
